(** * Site configuration constants of apdigh.org

    A shallow embedding of [src/constants/site.ts]: the three exported
    constants [SITE], [NAV_ITEMS] and [FOOTER_LINKS], the record shapes
    their [as const] literals have, and the well-formedness properties the
    specification states about them. *)

From Stdlib Require Import String Ascii List Bool Arith Lia.
Import ListNotations.
Open Scope string_scope.

(** ** Record shapes

    Each object literal of the source becomes a record; the modules keep the
    source's field names apart ([name], [url], [href] and [label] occur in
    more than one shape). *)

Module Social.
Record t : Set := mk
  { name : string
  ; icon : string
  ; url : string
  ; handle : string }.
End Social.

Module Site.
Record t : Set := mk
  { name : string
  ; fullName : string
  ; tagline : string
  ; url : string
  ; email : string
  ; mission : string
  ; social : list Social.t }.
End Site.

Module Nav.
Record t : Set := mk
  { href : string
  ; label : string }.
End Nav.

(** A footer entry may or may not carry the [external] key: the key is
    absent ([None]) on every literal but the repository link. *)
Module Footer.
Record t : Set := mk
  { href : string
  ; label : string
  ; external : option bool }.
End Footer.

Module FooterLinks.
Record t : Set := mk
  { quickLinks : list Footer.t
  ; resources : list Footer.t
  ; legal : list Footer.t }.
End FooterLinks.

(** ** The exported constants, literal for literal *)

Definition SITE : Site.t :=
  {| Site.name := "APDI"
   ; Site.fullName := "Association for the Protection of Digital Innovation"
   ; Site.tagline := "Protecting Digital Innovation"
   ; Site.url := "https://apdigh.org"
   ; Site.email := "contact@apdigh.org"
   ; Site.mission := "Protecting Ghana's digital innovation sector by informing citizens about tech bills and their impacts on startups, innovation, and the digital economy."
   ; Site.social :=
       [ {| Social.name := "Twitter"
          ; Social.icon := "ti ti-brand-x"
          ; Social.url := "https://twitter.com/apdigh"
          ; Social.handle := "@apdigh" |}
       ; {| Social.name := "YouTube"
          ; Social.icon := "ti ti-brand-youtube"
          ; Social.url := "https://www.youtube.com/@apdigh"
          ; Social.handle := "@apdigh" |} ] |}.

Definition NAV_ITEMS : list Nav.t :=
  [ {| Nav.href := "/"; Nav.label := "Home" |}
  ; {| Nav.href := "/bills"; Nav.label := "Bills" |}
  ; {| Nav.href := "/about"; Nav.label := "About" |} ].

Definition FOOTER_LINKS : FooterLinks.t :=
  {| FooterLinks.quickLinks :=
       [ {| Footer.href := "/bills"; Footer.label := "All Bills"
          ; Footer.external := None |}
       ; {| Footer.href := "/about"; Footer.label := "About Us"
          ; Footer.external := None |} ]
   ; FooterLinks.resources :=
       [ {| Footer.href := "https://github.com/apdigh-org/apdigh.org"
          ; Footer.label := "GitHub Repository"
          ; Footer.external := Some true |} ]
   ; FooterLinks.legal :=
       [ {| Footer.href := "/about#transparency"
          ; Footer.label := "AI Transparency"
          ; Footer.external := None |} ] |}.

(** ** String predicates used by the stated properties *)

Definition nonempty (s : string) : bool :=
  match s with
  | EmptyString => false
  | String _ _ => true
  end.

(** [startsWith s p]: [p] is an initial segment of [s]
    (the [String.prototype.startsWith] of the host language). *)
Fixpoint startsWith (s p : string) {struct p} : bool :=
  match p, s with
  | EmptyString, _ => true
  | String _ _, EmptyString => false
  | String a p', String b s' => Ascii.eqb a b && startsWith s' p'
  end.

Fixpoint string_forall (p : ascii -> bool) (s : string) : bool :=
  match s with
  | EmptyString => true
  | String c r => p c && string_forall p r
  end.

(** Longest initial segment whose characters satisfy [p], and what follows. *)
Fixpoint span (p : ascii -> bool) (s : string) : string * string :=
  match s with
  | EmptyString => (EmptyString, EmptyString)
  | String c r =>
      if p c then let (a, b) := span p r in (String c a, b)
      else (EmptyString, s)
  end.

Fixpoint strip_prefix (p s : string) {struct p} : option string :=
  match p, s with
  | EmptyString, _ => Some s
  | String _ _, EmptyString => None
  | String a p', String b s' =>
      if Ascii.eqb a b then strip_prefix p' s' else None
  end.

(** Fields of [s] between occurrences of [sep]; never the empty list. *)
Fixpoint split_on (sep : ascii) (s : string) : list string :=
  match s with
  | EmptyString => [EmptyString]
  | String c r =>
      if Ascii.eqb c sep then EmptyString :: split_on sep r
      else match split_on sep r with
           | [] => [String c EmptyString]
           | h :: t => String c h :: t
           end
  end.

Definition in_range (lo hi : nat) (c : ascii) : bool :=
  let n := nat_of_ascii c in Nat.leb lo n && Nat.leb n hi.

Definition one_of (set : string) (c : ascii) : bool :=
  existsb (Ascii.eqb c) (list_ascii_of_string set).

Definition is_alpha (c : ascii) : bool := in_range 65 90 c || in_range 97 122 c.
Definition is_digit (c : ascii) : bool := in_range 48 57 c.
Definition is_alnum (c : ascii) : bool := is_alpha c || is_digit c.

(** *** Absolute URLs: scheme, [://], host, then an optional port and tail

    The shape is the RFC 3986 one restricted to registered host names:
    [scheme "://" host [":" port] [("/" | "?" | "#") ...]]. *)

Definition is_scheme_char (c : ascii) : bool := is_alnum c || one_of "+-." c.
Definition is_host_char (c : ascii) : bool := is_alnum c || one_of "-." c.
Definition is_label_char (c : ascii) : bool := is_alnum c || one_of "-" c.
(** Visible ASCII: no blanks, no control characters. *)
Definition is_url_char (c : ascii) : bool := in_range 33 126 c.

Definition valid_scheme (s : string) : bool :=
  match s with
  | EmptyString => false
  | String c _ => is_alpha c && string_forall is_scheme_char s
  end.

Definition valid_label (l : string) : bool :=
  nonempty l && string_forall is_label_char l.

(** A host is a dot-separated sequence of non-empty labels. *)
Definition valid_host (h : string) : bool :=
  forallb valid_label (split_on "." h).

Definition valid_tail (t : string) : bool :=
  let t' := match strip_prefix ":" t with
            | Some r => snd (span is_digit r)
            | None => t
            end in
  match t' with
  | EmptyString => true
  | String c _ => one_of "/?#" c && string_forall is_url_char t'
  end.

Definition is_absolute_url (s : string) : bool :=
  let (scheme, r1) := span is_scheme_char s in
  valid_scheme scheme &&
  match strip_prefix "://" r1 with
  | None => false
  | Some r2 =>
      let (host, r3) := span is_host_char r2 in
      valid_host host && valid_tail r3
  end.

(** *** E-mail addresses: [local "@" domain]

    The local part is a dot-separated sequence of non-empty atoms, the
    domain a host name of at least two labels. *)

Definition is_atom_char (c : ascii) : bool :=
  is_alnum c || one_of "!#$%&'*+/=?^_`{|}~-" c.
Definition is_local_char (c : ascii) : bool := is_atom_char c || one_of "." c.

Definition valid_local (l : string) : bool :=
  forallb (fun a => nonempty a && string_forall is_atom_char a) (split_on "." l).

Definition is_email (s : string) : bool :=
  let (local, r) := span is_local_char s in
  valid_local local &&
  match strip_prefix "@" r with
  | None => false
  | Some d => valid_host d && Nat.leb 2 (List.length (split_on "." d))
  end.

(** ** Views on the constants *)

Definition footer_groups (f : FooterLinks.t) : list (list Footer.t) :=
  [FooterLinks.quickLinks f; FooterLinks.resources f; FooterLinks.legal f].

Definition social_strings (l : Social.t) : list string :=
  [Social.name l; Social.icon l; Social.url l; Social.handle l].

Definition site_strings (s : Site.t) : list string :=
  [Site.name s; Site.fullName s; Site.tagline s; Site.url s; Site.email s;
   Site.mission s] ++ flat_map social_strings (Site.social s).

Definition nav_strings (n : Nav.t) : list string := [Nav.href n; Nav.label n].

Definition footer_strings (l : Footer.t) : list string :=
  [Footer.href l; Footer.label l].

(** Every string-valued field reachable from the three exports. *)
Definition all_strings : list string :=
  site_strings SITE
  ++ flat_map nav_strings NAV_ITEMS
  ++ flat_map footer_strings (concat (footer_groups FOOTER_LINKS)).

(** ** The exports at run time

    [export const X = ... as const] binds [X] once. The binding cannot be
    assigned again, but [as const] only narrows the type: it is erased when
    the file is compiled and nothing in the file freezes the objects. A
    program that imports the module can therefore read an export and can
    also update, in place, the object an export is bound to. A read
    observes the contents that object has at that moment. *)

Module Store.

(** The contents of the three objects the bindings refer to. *)
Record t : Set := mk
  { site : Site.t
  ; nav_items : list Nav.t
  ; footer_links : FooterLinks.t }.

Inductive export : Set := ExSITE | ExNAV_ITEMS | ExFOOTER_LINKS.

Inductive value : Set :=
| VSite (s : Site.t)
| VNav (l : list Nav.t)
| VFooter (f : FooterLinks.t).



Definition get (e : export) (m : t) : value :=
  match e with
  | ExSITE => VSite (site m)
  | ExNAV_ITEMS => VNav (nav_items m)
  | ExFOOTER_LINKS => VFooter (footer_links m)
  end.

(** What an importing program can do. An update stands for any in-place
    change of the object the export is bound to (an assignment to a field,
    a [push], a [splice]), by whichever reference reaches that object. *)
Inductive op : Type :=
| Read (e : export)
| UpdateSite (f : Site.t -> Site.t)
| UpdateNav (f : list Nav.t -> list Nav.t)
| UpdateFooter (f : FooterLinks.t -> FooterLinks.t).


Definition apply (o : op) (m : t) : t :=
  match o with
  | Read _ => m
  | UpdateSite f =>
      {| site := f (site m); nav_items := nav_items m
       ; footer_links := footer_links m |}
  | UpdateNav f =>
      {| site := site m; nav_items := f (nav_items m)
       ; footer_links := footer_links m |}
  | UpdateFooter f =>
      {| site := site m; nav_items := nav_items m
       ; footer_links := f (footer_links m) |}
  end.

(** The operations of a program, in the order it performs them. *)
Definition run (os : list op) (m : t) : t :=
  fold_left (fun m' o => apply o m') os m.



End Store.

(** ** Further views, for the properties that relate one field to another *)

Definition footer_entries (f : FooterLinks.t) : list Footer.t :=
  concat (footer_groups f).

(** The path of an href: what precedes the first [#]. *)
Definition strip_fragment (s : string) : string :=
  fst (span (fun c => negb (Ascii.eqb c "#")) s).

(** [endsWith s p]: [p] is a final segment of [s]. *)
Fixpoint endsWith (s p : string) : bool :=
  String.eqb s p ||
  match s with
  | EmptyString => false
  | String _ r => endsWith r p
  end.

Fixpoint string_filter (p : ascii -> bool) (s : string) : string :=
  match s with
  | EmptyString => EmptyString
  | String c r => if p c then String c (string_filter p r) else string_filter p r
  end.

Fixpoint string_map (f : ascii -> ascii) (s : string) : string :=
  match s with
  | EmptyString => EmptyString
  | String c r => String (f c) (string_map f r)
  end.

Definition is_upper (c : ascii) : bool := in_range 65 90 c.

Definition to_lower (c : ascii) : ascii :=
  if is_upper c then ascii_of_nat (nat_of_ascii c + 32) else c.

Definition toLowerCase (s : string) : string := string_map to_lower s.

(** Blank, tab, line feed, vertical tab, form feed, carriage return. *)
Definition is_blank (c : ascii) : bool := in_range 32 32 c || in_range 9 13 c.

Definition is_printable (c : ascii) : bool := in_range 32 126 c.

Fixpoint last_char (s : string) : option ascii :=
  match s with
  | EmptyString => None
  | String c EmptyString => Some c
  | String _ r => last_char r
  end.

(** No blank at either end. *)
Definition trimmed (s : string) : bool :=
  match s, last_char s with
  | String c _, Some d => negb (is_blank c) && negb (is_blank d)
  | _, _ => true
  end.

(** The host of an absolute URL, read by the parse [is_absolute_url] does. *)
Definition url_host (s : string) : option string :=
  if is_absolute_url s then
    match strip_prefix "://" (snd (span is_scheme_char s)) with
    | Some r => Some (fst (span is_host_char r))
    | None => None
    end
  else None.

(** The domain of an e-mail address: what follows the [@]. *)
Definition email_domain (s : string) : option string :=
  if is_email s then strip_prefix "@" (snd (span is_local_char s)) else None.

(** Every URL-valued field: the site's own, the social profiles', and the
    hrefs of the footer entries flagged [external]. *)
Definition all_urls : list string :=
  Site.url SITE
  :: map Social.url (Site.social SITE)
  ++ map Footer.href
       (filter (fun l => match Footer.external l with
                         | Some true => true
                         | _ => false
                         end)
               (footer_entries FOOTER_LINKS)).

(** ** Proof steps shared by the list properties *)

Ltac nodup_by_cases :=
  repeat (apply NoDup_cons; [cbn; intuition discriminate|]); apply NoDup_nil.

Ltac pick_member := repeat first [left; reflexivity | right].

(** ** General facts about the predicates *)

Lemma nonempty_iff (s : string) : nonempty s = true <-> s <> EmptyString.
Proof.
  destruct s as [|c r]; simpl; split; intro H;
    solve [discriminate | reflexivity | exfalso; apply H; reflexivity].
Qed.

Lemma startsWith_char (s : string) (c : ascii) :
  startsWith s (String c EmptyString) = true <-> exists r, s = String c r.
Proof.
  destruct s as [|b r]; simpl.
  - split; [discriminate | intros [r' H]; discriminate].
  - rewrite andb_true_r, Ascii.eqb_eq. split.
    + intros ->. exists r. reflexivity.
    + intros [r' H]. injection H as -> _. reflexivity.
Qed.

Lemma span_prefix_forall (p : ascii -> bool) (s : string) :
  string_forall p (fst (span p s)) = true.
Proof.
  induction s as [|c r IH]; simpl; [reflexivity|].
  destruct (p c) eqn:Hc; [|reflexivity].
  destruct (span p r) as [a b]. simpl in *. rewrite Hc, IH. reflexivity.
Qed.

(** What [span] splits off and what it leaves make up the input again. *)
Lemma span_append (p : ascii -> bool) (s : string) :
  (fst (span p s) ++ snd (span p s))%string = s.
Proof.
  induction s as [|c r IH]; simpl; [reflexivity|].
  destruct (p c); [|reflexivity].
  destruct (span p r) as [a b]. simpl in *. rewrite IH. reflexivity.
Qed.

Lemma is_absolute_url_first_alpha (s : string) :
  is_absolute_url s = true -> exists c r, s = String c r /\ is_alpha c = true.
Proof.
  destruct s as [|c r]; [discriminate|].
  unfold is_absolute_url. simpl span.
  destruct (is_scheme_char c); [|discriminate].
  destruct (span is_scheme_char r) as [a b].
  intro H. apply andb_true_iff in H as [H _].
  simpl in H. apply andb_true_iff in H as [H _].
  exists c, r. split; [reflexivity | exact H].
Qed.

(** An absolute URL is never site-relative, so the two footer cases
    exclude each other. *)
Lemma is_absolute_url_not_site_relative (s : string) :
  is_absolute_url s = true -> startsWith s "/" = false.
Proof.
  intro H. destruct (is_absolute_url_first_alpha s H) as (c & r & -> & Hc).
  destruct (startsWith (String c r) "/") eqn:E; [|reflexivity].
  apply startsWith_char in E as [r' E]. injection E as -> _.
  vm_compute in Hc. discriminate Hc.
Qed.

Lemma is_email_nonempty (s : string) : is_email s = true -> s <> EmptyString.
Proof. intros H ->. discriminate H. Qed.

(** The predicates reject what they should: a path, a missing host, a
    blank in the host; a missing local part, a bare host, two [@]. *)
Example is_absolute_url_rejects :
  map is_absolute_url
    ["/bills"; "https://"; "https:/apdigh.org"; "apdigh.org";
     "https://apdigh org"; "https://.org"]
  = [false; false; false; false; false; false].
Proof. vm_compute. reflexivity. Qed.

Example is_absolute_url_accepts_port_query_fragment :
  is_absolute_url "http://apdigh.org:8080/bills?year=2025#top" = true.
Proof. vm_compute. reflexivity. Qed.

Example is_email_rejects :
  map is_email
    ["contact"; "@apdigh.org"; "contact@apdigh"; "contact@@apdigh.org";
     "con tact@apdigh.org"; "contact@apdigh..org"; ".contact@apdigh.org"]
  = [false; false; false; false; false; false; false].
Proof. vm_compute. reflexivity. Qed.

(** ** What leaves the contents of an export as they are *)




Lemma run_app (os1 os2 : list Store.op) (m : Store.t) :
  Store.run (os1 ++ os2) m = Store.run os2 (Store.run os1 m).
Proof. unfold Store.run. apply fold_left_app. Qed.

(** An update is observed by the next read of the export it writes. *)
Lemma get_update_nav (f : list Nav.t -> list Nav.t) (m : Store.t) :
  Store.get Store.ExNAV_ITEMS (Store.apply (Store.UpdateNav f) m)
  = Store.VNav (f (Store.nav_items m)).
Proof. reflexivity. Qed.

(** ** The stated properties of the constants *)

(** C4. [SITE.name] is ['APDI'] and [SITE.tagline] is
    ['Protecting Digital Innovation']. *)
Theorem SITE_name_tagline :
  Site.name SITE = "APDI" /\
  Site.tagline SITE = "Protecting Digital Innovation".
Proof. split; reflexivity. Qed.

(** C1. [NAV_ITEMS] has exactly three entries; their hrefs are, in order,
    ['/'], ['/bills'], ['/about'] and their labels, in order, ['Home'],
    ['Bills'], ['About']. *)
Theorem NAV_ITEMS_entries :
  List.length NAV_ITEMS = 3 /\
  map Nav.href NAV_ITEMS = ["/"; "/bills"; "/about"] /\
  map Nav.label NAV_ITEMS = ["Home"; "Bills"; "About"].
Proof. repeat split. Qed.

(** C2. [SITE.social] has exactly two entries, named ['Twitter'] and
    ['YouTube']; the handle of each is a non-empty string whose first
    character is ['@']. *)
Theorem SITE_social_entries :
  List.length (Site.social SITE) = 2 /\
  map Social.name (Site.social SITE) = ["Twitter"; "YouTube"] /\
  Forall (fun l => Social.handle l <> EmptyString /\
                   String.get 0 (Social.handle l) = Some "@"%char)
         (Site.social SITE).
Proof.
  split; [reflexivity|]. split; [reflexivity|].
  unfold SITE; cbn [Site.social].
  repeat (apply Forall_cons; [split; [discriminate | reflexivity]|]).
  apply Forall_nil.
Qed.

(** C3. [FOOTER_LINKS.resources] has exactly one entry; its [external] is
    [true] and its [href] is ['https://github.com/apdigh-org/apdigh.org']. *)
Theorem FOOTER_LINKS_resources_entry :
  List.length (FooterLinks.resources FOOTER_LINKS) = 1 /\
  exists l, FooterLinks.resources FOOTER_LINKS = [l] /\
            Footer.external l = Some true /\
            Footer.href l = "https://github.com/apdigh-org/apdigh.org".
Proof.
  split; [reflexivity|].
  eexists. split; [reflexivity|]. split; reflexivity.
Qed.

(** C5. For every entry of every group of [FOOTER_LINKS] ([quickLinks],
    [resources], [legal]): if its [external] flag is [true], its [href] is a
    syntactically valid absolute URL (scheme and host); if the flag is
    [false] or absent, its [href] starts with ['/']. *)
Theorem FOOTER_LINKS_href_by_external (g : list Footer.t) (l : Footer.t) :
  In g (footer_groups FOOTER_LINKS) -> In l g ->
  (Footer.external l = Some true -> is_absolute_url (Footer.href l) = true) /\
  (Footer.external l = Some false \/ Footer.external l = None ->
   startsWith (Footer.href l) "/" = true).
Proof.
  intros Hg Hl. cbn in Hg.
  destruct Hg as [<- | [<- | [<- | []]]]; cbn in Hl;
    repeat (destruct Hl as [<- | Hl]; [|]); try contradiction;
    cbn [Footer.external Footer.href]; split; intro H;
    solve [ discriminate H
          | destruct H; discriminate
          | vm_compute; reflexivity ].
Qed.

Lemma FOOTER_LINKS_href_by_external_witness :
  In (FooterLinks.resources FOOTER_LINKS) (footer_groups FOOTER_LINKS) /\
  is_absolute_url "https://github.com/apdigh-org/apdigh.org" = true.
Proof.
  assert (Hg : In (FooterLinks.resources FOOTER_LINKS)
                  (footer_groups FOOTER_LINKS))
    by (right; left; reflexivity).
  split; [exact Hg|].
  refine (proj1 (FOOTER_LINKS_href_by_external
                   (FooterLinks.resources FOOTER_LINKS)
                   (Footer.mk "https://github.com/apdigh-org/apdigh.org"
                              "GitHub Repository" (Some true))
                   Hg _) eq_refl).
  left; reflexivity.
Defined.

(** C6. For every entry of [NAV_ITEMS], the [href] starts with ['/'] and
    the [label] is a non-empty string. *)
Theorem NAV_ITEMS_site_relative :
  Forall (fun n => startsWith (Nav.href n) "/" = true /\
                   Nav.label n <> EmptyString)
         NAV_ITEMS.
Proof.
  unfold NAV_ITEMS.
  repeat (apply Forall_cons; [split; [reflexivity | discriminate]|]).
  apply Forall_nil.
Qed.

(** C7. [SITE.url] is a syntactically valid absolute URL, [SITE.email] is a
    syntactically valid e-mail address, and for every entry of
    [SITE.social] the [url] is a valid absolute URL (scheme and host) and
    the [handle] is non-empty. *)
Theorem SITE_url_email_social_valid :
  is_absolute_url (Site.url SITE) = true /\
  is_email (Site.email SITE) = true /\
  Forall (fun l => is_absolute_url (Social.url l) = true /\
                   Social.handle l <> EmptyString)
         (Site.social SITE).
Proof.
  split; [vm_compute; reflexivity|]. split; [vm_compute; reflexivity|].
  unfold SITE; cbn [Site.social].
  repeat (apply Forall_cons; [split; [vm_compute; reflexivity | discriminate]|]).
  apply Forall_nil.
Qed.

(** C8. Every string field of [SITE] (those of every [SITE.social] entry
    included), of every [NAV_ITEMS] entry and of every entry of every
    [FOOTER_LINKS] group is a non-empty string. *)
Theorem all_string_fields_nonempty (s : string) :
  In s all_strings -> s <> EmptyString.
Proof.
  intro H. apply nonempty_iff.
  assert (Hall : forallb nonempty all_strings = true)
    by (vm_compute; reflexivity).
  rewrite forallb_forall in Hall. apply Hall. exact H.
Qed.

Lemma all_string_fields_nonempty_witness :
  In (Site.mission SITE) all_strings /\ Site.mission SITE <> EmptyString.
Proof.
  assert (H : In (Site.mission SITE) all_strings)
    by (do 5 right; left; reflexivity).
  split; [exact H | exact (all_string_fields_nonempty (Site.mission SITE) H)].
Defined.




(** C10. Every [href] in [FOOTER_LINKS.quickLinks] (they are ['/bills'] and
    ['/about']) is the [href] of some entry of [NAV_ITEMS]. *)
Theorem quickLinks_within_NAV_ITEMS (l : Footer.t) :
  In l (FooterLinks.quickLinks FOOTER_LINKS) ->
  In (Footer.href l) ["/bills"; "/about"] /\
  exists n, In n NAV_ITEMS /\ Nav.href n = Footer.href l.
Proof.
  cbn. intros [<- | [<- | []]]; cbn [Footer.href].
  - split; [left; reflexivity|].
    eexists. split; [right; left; reflexivity | reflexivity].
  - split; [right; left; reflexivity|].
    eexists. split; [right; right; left; reflexivity | reflexivity].
Qed.

Lemma quickLinks_within_NAV_ITEMS_witness :
  In (Footer.mk "/bills" "All Bills" None)
     (FooterLinks.quickLinks FOOTER_LINKS) /\
  exists n, In n NAV_ITEMS /\ Nav.href n = "/bills".
Proof.
  assert (H : In (Footer.mk "/bills" "All Bills" None)
                 (FooterLinks.quickLinks FOOTER_LINKS))
    by (left; reflexivity).
  split; [exact H | exact (proj2 (quickLinks_within_NAV_ITEMS _ H))].
Defined.

(** ** Further properties the constants have *)

Lemma endsWith_refl (p : string) : endsWith p p = true.
Proof. destruct p; cbn [endsWith]; rewrite String.eqb_refl; reflexivity. Qed.

Lemma endsWith_append (a p : string) : endsWith (a ++ p) p = true.
Proof.
  induction a as [|c a IH]; cbn [append endsWith].
  - apply endsWith_refl.
  - rewrite IH. apply orb_true_r.
Qed.

Lemma url_host_absolute (s h : string) :
  url_host s = Some h -> is_absolute_url s = true.
Proof.
  unfold url_host. destruct (is_absolute_url s); [reflexivity | discriminate].
Qed.

(** X1. No two entries of [NAV_ITEMS] share an [href], and no two share a
    [label]. *)
Theorem NAV_ITEMS_distinct :
  NoDup (map Nav.href NAV_ITEMS) /\ NoDup (map Nav.label NAV_ITEMS).
Proof. split; nodup_by_cases. Qed.

(** X2. Every footer entry, in whichever group, that is not flagged
    [external] points, once its [#fragment] is dropped, at the [href] of an
    entry of [NAV_ITEMS]. *)
Theorem footer_internal_links_are_routes (l : Footer.t) :
  In l (footer_entries FOOTER_LINKS) ->
  Footer.external l <> Some true ->
  In (strip_fragment (Footer.href l)) (map Nav.href NAV_ITEMS).
Proof.
  intros Hl Hext. cbn in Hl.
  repeat (destruct Hl as [<- | Hl]; [|]); try contradiction;
    try (exfalso; apply Hext; reflexivity);
    vm_compute; pick_member.
Qed.

Lemma footer_internal_links_are_routes_witness :
  In (Footer.mk "/about#transparency" "AI Transparency" None)
     (footer_entries FOOTER_LINKS) /\
  In "/about" (map Nav.href NAV_ITEMS).
Proof.
  assert (H : In (Footer.mk "/about#transparency" "AI Transparency" None)
                 (footer_entries FOOTER_LINKS))
    by (do 3 right; left; reflexivity).
  split; [exact H|].
  refine (footer_internal_links_are_routes _ H _). discriminate.
Defined.

(** X3. A footer entry is flagged [external] exactly when its [href] is an
    absolute URL. *)
Theorem footer_external_iff_absolute (l : Footer.t) :
  In l (footer_entries FOOTER_LINKS) ->
  (Footer.external l = Some true <-> is_absolute_url (Footer.href l) = true).
Proof.
  intro Hl. cbn in Hl.
  repeat (destruct Hl as [<- | Hl]; [|]); try contradiction;
    cbn [Footer.external Footer.href]; split; intro H;
    solve [ reflexivity | discriminate H
          | vm_compute; reflexivity | vm_compute in H; discriminate H ].
Qed.

Lemma footer_external_iff_absolute_witness :
  In (Footer.mk "/bills" "All Bills" None) (footer_entries FOOTER_LINKS) /\
  (None = Some true <-> is_absolute_url "/bills" = true).
Proof.
  assert (H : In (Footer.mk "/bills" "All Bills" None)
                 (footer_entries FOOTER_LINKS))
    by (left; reflexivity).
  split; [exact H | exact (footer_external_iff_absolute _ H)].
Defined.

(** X4. The domain of [SITE.email] is the host of [SITE.url]. *)
Theorem SITE_email_domain_is_url_host :
  exists h, url_host (Site.url SITE) = Some h /\
            email_domain (Site.email SITE) = Some h.
Proof. exists "apdigh.org". split; vm_compute; reflexivity. Qed.

(** X5. For every entry of [SITE.social], the [handle] is ['@'] followed by
    a non-empty account name, and the [url] ends with that account name. *)
Theorem social_url_ends_with_account :
  Forall (fun l => exists account,
            Social.handle l = String "@" account /\
            account <> EmptyString /\
            endsWith (Social.url l) account = true)
         (Site.social SITE).
Proof.
  unfold SITE; cbn [Site.social].
  repeat (apply Forall_cons;
          [eexists; split; [reflexivity|];
           split; [discriminate | vm_compute; reflexivity]|]).
  apply Forall_nil.
Qed.

(** X6. The entries of [SITE.social] have pairwise distinct names, icons
    and urls, and their urls have pairwise distinct hosts. *)
Theorem social_entries_distinct :
  NoDup (map Social.name (Site.social SITE)) /\
  NoDup (map Social.icon (Site.social SITE)) /\
  NoDup (map Social.url (Site.social SITE)) /\
  NoDup (map (fun l => url_host (Social.url l)) (Site.social SITE)).
Proof.
  repeat split; nodup_by_cases.
Qed.

(** X7. Across the three groups of [FOOTER_LINKS] no two entries share an
    [href], and no two share a [label]. *)
Theorem footer_entries_distinct :
  NoDup (map Footer.href (footer_entries FOOTER_LINKS)) /\
  NoDup (map Footer.label (footer_entries FOOTER_LINKS)).
Proof. split; nodup_by_cases. Qed.

(** X8. [SITE.name] is the acronym of [SITE.fullName]: the capital letters
    of the full name, in order. *)
Theorem SITE_name_is_acronym :
  string_filter is_upper (Site.fullName SITE) = Site.name SITE.
Proof. vm_compute. reflexivity. Qed.

(** X9. Every entry of [NAV_ITEMS] other than the root ['/'] has as [href]
    its [label] in lower case after a ['/']. *)
Theorem NAV_ITEMS_href_from_label (n : Nav.t) :
  In n NAV_ITEMS -> Nav.href n <> "/" ->
  Nav.href n = String "/" (toLowerCase (Nav.label n)).
Proof.
  intros Hn Hroot. cbn in Hn.
  repeat (destruct Hn as [<- | Hn]; [|]); try contradiction;
    try (exfalso; apply Hroot; reflexivity);
    vm_compute; reflexivity.
Qed.

Lemma NAV_ITEMS_href_from_label_witness :
  In (Nav.mk "/bills" "Bills") NAV_ITEMS /\
  "/bills" = String "/" (toLowerCase "Bills").
Proof.
  assert (H : In (Nav.mk "/bills" "Bills") NAV_ITEMS)
    by (right; left; reflexivity).
  split; [exact H|].
  refine (NAV_ITEMS_href_from_label _ H _). discriminate.
Defined.

(** X10. No string field of the three exports begins or ends with a blank,
    and every character of every field is printable ASCII. *)
Theorem all_string_fields_trimmed_printable (s : string) :
  In s all_strings ->
  trimmed s = true /\ string_forall is_printable s = true.
Proof.
  intro H. apply andb_true_iff.
  assert (Hall : forallb (fun x => trimmed x && string_forall is_printable x)
                         all_strings = true)
    by (vm_compute; reflexivity).
  rewrite forallb_forall in Hall. exact (Hall s H).
Qed.

Lemma all_string_fields_trimmed_printable_witness :
  In (Site.fullName SITE) all_strings /\
  trimmed (Site.fullName SITE) = true /\
  string_forall is_printable (Site.fullName SITE) = true.
Proof.
  assert (H : In (Site.fullName SITE) all_strings)
    by (right; left; reflexivity).
  split; [exact H | exact (all_string_fields_trimmed_printable _ H)].
Defined.

(** X11. The [icon] of every [SITE.social] entry is two classes separated
    by one blank: [ti], then a class beginning [ti-brand-]. *)
Theorem social_icon_classes :
  Forall (fun l => exists c,
            split_on " " (Social.icon l) = ["ti"; c] /\
            startsWith c "ti-brand-" = true)
         (Site.social SITE).
Proof.
  unfold SITE; cbn [Site.social].
  repeat (apply Forall_cons;
          [eexists; split; vm_compute; reflexivity|]).
  apply Forall_nil.
Qed.

(** X12. Every URL in the file ([SITE.url], the social urls, the external
    footer hrefs) uses the [https] scheme. *)
Theorem all_urls_https (u : string) :
  In u all_urls -> startsWith u "https://" = true.
Proof.
  intro H.
  assert (Hall : forallb (fun x => startsWith x "https://") all_urls = true)
    by (vm_compute; reflexivity).
  rewrite forallb_forall in Hall. exact (Hall u H).
Qed.

Lemma all_urls_https_witness :
  In "https://www.youtube.com/@apdigh" all_urls /\
  startsWith "https://www.youtube.com/@apdigh" "https://" = true.
Proof.
  assert (H : In "https://www.youtube.com/@apdigh" all_urls)
    by (do 2 right; left; reflexivity).
  split; [exact H | exact (all_urls_https _ H)].
Defined.

(** X13. A footer entry flagged [external] leaves the site: its [href] has
    a host, and the host is not that of [SITE.url]. *)
Theorem footer_external_leaves_site (l : Footer.t) :
  In l (footer_entries FOOTER_LINKS) ->
  Footer.external l = Some true ->
  exists h, url_host (Footer.href l) = Some h /\
            url_host (Site.url SITE) <> Some h.
Proof.
  intros Hl Hext. cbn in Hl.
  repeat (destruct Hl as [<- | Hl]; [|]); try contradiction;
    try discriminate Hext.
  exists "github.com". split; [vm_compute; reflexivity|].
  vm_compute. discriminate.
Qed.

Lemma footer_external_leaves_site_witness :
  In (Footer.mk "https://github.com/apdigh-org/apdigh.org"
                "GitHub Repository" (Some true))
     (footer_entries FOOTER_LINKS) /\
  exists h, url_host "https://github.com/apdigh-org/apdigh.org" = Some h /\
            url_host (Site.url SITE) <> Some h.
Proof.
  assert (H : In (Footer.mk "https://github.com/apdigh-org/apdigh.org"
                            "GitHub Repository" (Some true))
                 (footer_entries FOOTER_LINKS))
    by (do 2 right; left; reflexivity).
  split; [exact H | exact (footer_external_leaves_site _ H eq_refl)].
Defined.

(** X14. Every [SITE.social] entry carries the same handle, and the account
    it names is the first label of the host of [SITE.url]. *)
Theorem social_handle_is_site_label :
  exists host account rest,
    url_host (Site.url SITE) = Some host /\
    split_on "." host = account :: rest /\
    Forall (fun l => Social.handle l = String "@" account) (Site.social SITE).
Proof.
  exists "apdigh.org", "apdigh", ["org"].
  split; [vm_compute; reflexivity|]. split; [vm_compute; reflexivity|].
  unfold SITE; cbn [Site.social].
  repeat (apply Forall_cons; [reflexivity|]). apply Forall_nil.
Qed.
